(** * Delta violation penalty calculator (Delta.py)

    A shallow embedding of the computational core of [Delta.py]:
    [calculate_position_delta], [calculate_penalty], [check_violation],
    and the part of the Streamlit session state that feeds them
    (the two position books and the two sums of their
    ['Position Delta'] fields).

    Numbers.  The source computes with Python numbers ([int]s from the
    quantity widgets and literals, [float]s everywhere else).  The
    properties studied here are the branch structure and the algebra of
    the formulas, so numbers are modelled as exact rationals [Q]:
    [float(x)] is the identity cast, [==], [<], [>] are decided on the
    values, and [abs], [max], [min] are the Python built-ins on those
    values.  Rounding, infinities and NaN are outside this model; the
    statements proved on it are chosen so that they use only what exact
    and binary64 arithmetic share (the branches taken, signs, order,
    and equations between the very expressions the code evaluates).
    Where rounding decides a question, [Binary64.calculate_penalty]
    evaluates the same formula on machine numbers. *)

From Stdlib Require Import QArith Qabs Qminmax Lqa ZArith String List Bool Lia.
From Stdlib Require PrimFloat.
Import ListNotations.

Local Open Scope Q_scope.

(** ** Python numeric built-ins *)

Module Py.

(** [float(x)] on a number. *)
Definition float (x : Q) : Q := x.

(** [x < y], [x > y], [x != y], [x == y] as Python evaluates them. *)
Definition lt (x y : Q) : bool := negb (Qle_bool y x).
Definition gt (x y : Q) : bool := lt y x.
Definition eq (x y : Q) : bool := Qeq_bool x y.
Definition ne (x y : Q) : bool := negb (Qeq_bool x y).

(** [max(a, b)] keeps the first argument unless the second is strictly
    greater; [min(a, b)] keeps the first unless the second is strictly
    smaller. *)
Definition max (a b : Q) : Q := if gt b a then b else a.
Definition min (a b : Q) : Q := if lt b a then b else a.

(** [sum(xs)]: left fold of [+] starting from the integer [0]. *)
Definition sum (xs : list Q) : Q := fold_left Qplus xs 0.

End Py.

(** ** The three pure functions *)

(** [calculate_position_delta(pos_type, direction, qty, delta_value)] *)
Definition calculate_position_delta
    (pos_type direction : string) (qty delta_value : Q) : Q :=
  let qty := Py.float qty in
  let delta_value := Py.float delta_value in
  if (pos_type =? "Future")%string then
    let effective_delta := if (direction =? "Long")%string then 1 else -1 in
    effective_delta * qty
  else if (pos_type =? "Call Option")%string then
    let effective_delta :=
      if (direction =? "Long")%string then delta_value else - delta_value in
    effective_delta * qty
  else
    let effective_delta :=
      if (direction =? "Long")%string
      then - Qabs delta_value
      else Qabs delta_value in
    effective_delta * qty.

(** [calculate_penalty(delta_violation, stock_price)] returns
    [(penalty_amount, final_penalty, gst, total_penalty)]. *)
Definition calculate_penalty (delta_violation stock_price : Q)
    : Q * Q * Q * Q :=
  let penalty_amount := Qabs delta_violation * stock_price * 0.01 in
  let final_penalty := Py.max 5000 (Py.min 100000 penalty_amount) in
  let gst := final_penalty * 0.18 in
  let total_penalty := final_penalty + gst in
  (penalty_amount, final_penalty, gst, total_penalty).

(** [check_violation(net_delta, base_delta)] returns
    [(has_violation, violation_quantity, violation_reason)]. *)
Definition check_violation (net_delta base_delta : Q)
    : bool * Q * string :=
  if Py.eq base_delta 0 then
    (Py.ne net_delta 0, Qabs net_delta, "From zero to non-zero"%string)
  else
    let sign_changed :=
      (Py.gt net_delta 0 && Py.lt base_delta 0)
      || (Py.lt net_delta 0 && Py.gt base_delta 0) in
    if sign_changed then
      let violation_qty := Qabs (net_delta - base_delta) in
      (true, violation_qty,
       ("Sign changed from " ++
        (if Py.gt net_delta 0
         then "negative to positive"
         else "positive to negative"))%string)
    else
      let delta_increased :=
        if Py.lt base_delta 0
        then Py.gt net_delta base_delta
        else Py.gt net_delta base_delta in
      if delta_increased then
        let violation_qty := Qabs (net_delta - base_delta) in
        (true, violation_qty, "Net Delta increased in same direction"%string)
      else
        (false, 0, "No violation - Delta decreased or remained same"%string).

(** Projections of the two result tuples. *)
Definition has_violation (r : bool * Q * string) : bool := fst (fst r).
Definition violation_qty (r : bool * Q * string) : Q := snd (fst r).
Definition violation_reason (r : bool * Q * string) : string := snd r.

Definition penalty_raw (r : Q * Q * Q * Q) : Q := fst (fst (fst r)).
Definition final_penalty (r : Q * Q * Q * Q) : Q := snd (fst (fst r)).
Definition gst (r : Q * Q * Q * Q) : Q := snd (fst r).
Definition total_penalty (r : Q * Q * Q * Q) : Q := snd r.

(** ** The penalty on machine numbers

    [calculate_penalty] once more, on IEEE 754 binary64 numbers with
    the machine's multiplication, addition and comparisons, as Python
    floats have them. *)

Module Binary64.

Import PrimFloat.
Local Open Scope float_scope.

(** [max(a, b)] and [min(a, b)] of Python on floats. *)
Definition max (a b : float) : float := if a <? b then b else a.
Definition min (a b : float) : float := if b <? a then b else a.

#[warnings="-inexact-float"]
Definition calculate_penalty (delta_violation stock_price : float)
    : float * float * float * float :=
  let penalty_amount := abs delta_violation * stock_price * 0.01 in
  let final_penalty := max 5000 (min 100000 penalty_amount) in
  let gst := final_penalty * 0.18 in
  let total_penalty := final_penalty + gst in
  (penalty_amount, final_penalty, gst, total_penalty).

(** The negative-price rule as the specification words it: for a
    non-zero magnitude and a negative price the raw amount is negative,
    the clamped amount is 5000, the surcharge 900 and the total
    5900. *)
Definition negative_price_rule_as_specified (m p : float) : Prop :=
  (m =? 0) = false -> (p <? 0) = true ->
  (fst (fst (fst (calculate_penalty m p))) <? 0) = true /\
  (snd (fst (fst (calculate_penalty m p))) =? 5000) = true /\
  (snd (fst (calculate_penalty m p)) =? 900) = true /\
  (snd (calculate_penalty m p) =? 5900) = true.

End Binary64.

(** ** Session state: the two books *)

(** One row of [st.session_state.old_positions] / [new_positions]: the
    dict with keys ['Type'], ['Direction'], ['Quantity'], ['Delta'] (the
    text typed in the form) and ['Position Delta'] (computed when the
    row is appended). *)
Record Position := mkPosition {
  Type_ : string;
  Direction : string;
  Quantity : Z;
  Delta : string;
  Position_Delta : Q
}.

Record SessionState := mkSession {
  old_positions : list Position;
  new_positions : list Position;
  stock_name : string
}.

Definition initial_state : SessionState :=
  mkSession [] [] EmptyString.

(** Which book a widget belongs to. *)
Inductive Book := Old | New.

(** User interactions that change the session state. *)
Inductive Event :=
| Add (b : Book) (type direction : string) (qty : Z) (delta : string)
| RemoveLast (b : Book)
| ClearAll (b : Book)
| CopyOldToNew
| ClearBoth
| SetStockName (name : string).

Definition book (b : Book) (s : SessionState) : list Position :=
  match b with Old => old_positions s | New => new_positions s end.

Definition set_book (b : Book) (l : list Position) (s : SessionState)
    : SessionState :=
  match b with
  | Old => mkSession l (new_positions s) (stock_name s)
  | New => mkSession (old_positions s) l (stock_name s)
  end.

(** [sum([pos['Position Delta'] for pos in positions])] *)
Definition net_of (positions : list Position) : Q :=
  Py.sum (map Position_Delta positions).

Definition base_delta (s : SessionState) : Q := net_of (old_positions s).
Definition net_delta (s : SessionState) : Q := net_of (new_positions s).

Section Session.

(** [float(text)] on the text of the Delta field: [None] stands for
    the [ValueError] raised on text that is not a number.  Python also
    accepts texts such as "nan" and "inf"; they denote no rational, and
    the statements about stored rows and shown results are phrased so
    that they do not depend on the parsed number being finite. *)
Variable float_of_text : string -> option Q.

(** The body of the [try] block of an "add position" form. *)
Definition new_row (type direction : string) (qty : Z) (delta : string)
    : option Position :=
  match float_of_text delta with
  | Some delta_val =>
      let position_delta :=
        calculate_position_delta type direction (inject_Z qty) delta_val in
      Some (mkPosition type direction qty delta position_delta)
  | None => None
  end.

(** One interaction.  The "remove last" and "clear all" buttons of a
    book are rendered only while the book is non-empty, and "copy"
    only warns when the old book is empty. *)
Definition handle (s : SessionState) (e : Event) : SessionState :=
  match e with
  | Add b type direction qty delta =>
      match new_row type direction qty delta with
      | Some row => set_book b (book b s ++ [row]) s
      | None => s
      end
  | RemoveLast b => set_book b (removelast (book b s)) s
  | ClearAll b => set_book b [] s
  | CopyOldToNew =>
      match old_positions s with
      | [] => s
      | _ :: _ => set_book New (old_positions s) s
      end
  | ClearBoth => mkSession [] [] (stock_name s)
  | SetStockName name => mkSession (old_positions s) (new_positions s) name
  end.

Definition run (es : list Event) : SessionState :=
  fold_left handle es initial_state.

(** The contribution of a stored row, recomputed from its input
    fields. *)
Definition value_position (p : Position) : option Q :=
  match float_of_text (Delta p) with
  | Some delta_val =>
      Some (calculate_position_delta (Type_ p) (Direction p)
              (inject_Z (Quantity p)) delta_val)
  | None => None
  end.

(** A row whose stored ['Position Delta'] is the value of its inputs. *)
Definition row_ok (p : Position) : Prop :=
  value_position p = Some (Position_Delta p).

Definition state_ok (s : SessionState) : Prop :=
  Forall row_ok (old_positions s) /\ Forall row_ok (new_positions s).

(** Recompute every row of a book; [None] if some row does not
    evaluate. *)
Fixpoint values (positions : list Position) : option (list Q) :=
  match positions with
  | [] => Some []
  | p :: rest =>
      match value_position p, values rest with
      | Some v, Some vs => Some (v :: vs)
      | _, _ => None
      end
  end.

End Session.

(** ** Books as sequences of positions

    A position as the user describes it: kind, direction, quantity,
    the text typed for the sensitivity and the number that text
    denotes. *)
Record Entry := mkEntry {
  entry_type : string;
  entry_direction : string;
  entry_qty : Z;
  entry_text : string;
  entry_delta : Q
}.

(** Submitting the add form of book [b] filled in with an entry. *)
Definition submit (b : Book) (e : Entry) : Event :=
  Add b (entry_type e) (entry_direction e) (entry_qty e) (entry_text e).

(** The contribution of an entry. *)
Definition entry_value (e : Entry) : Q :=
  calculate_position_delta (entry_type e) (entry_direction e)
    (inject_Z (entry_qty e)) (entry_delta e).

(** The row the page stores for an entry. *)
Definition entry_row (e : Entry) : Position :=
  mkPosition (entry_type e) (entry_direction e) (entry_qty e)
    (entry_text e) (entry_value e).

(** The entries of the two books of the documented case. *)
Definition example_old_entries : list Entry :=
  [ mkEntry "Call Option" "Long" 7200 "0.02323" 0.02323;
    mkEntry "Call Option" "Short" 25200 "0.00562" 0.00562 ].

(** ** The results section

    What the page shows under "RESULTS & PENALTY CALCULATION" for a
    session state and the underlying price typed by the user. *)
Inductive Report :=
| AddPositionsPrompt
    (* neither book has a row: "Add positions in both OLD and NEW ..." *)
| ViolationDetected (reason : string) (violation_qty : Q)
    (penalty : Q * Q * Q * Q)
    (* "DELTA VIOLATION DETECTED!" with the penalty breakdown *)
| NoPositionsToEvaluate
    (* "No positions to evaluate." *)
| DecreasedOrPassive (reason : string)
    (* the reason, followed by "Delta has decreased or this could be a
       passive change" *)
| PositionsUnchanged.
    (* "Positions are unchanged." *)

(** Truth value of a list in a Python condition. *)
Definition truthy {A : Type} (l : list A) : bool :=
  match l with [] => false | _ :: _ => true end.

Definition results (s : SessionState) (stock_price : Q) : Report :=
  if truthy (old_positions s) || truthy (new_positions s) then
    let base_delta := base_delta s in
    let net_delta := net_delta s in
    let '(has_violation, violation_qty, violation_reason) :=
      check_violation net_delta base_delta in
    if has_violation then
      ViolationDetected violation_reason violation_qty
        (calculate_penalty violation_qty stock_price)
    else if Py.eq base_delta 0 && Py.eq net_delta 0 then
      NoPositionsToEvaluate
    else if Py.ne net_delta base_delta then
      DecreasedOrPassive violation_reason
    else
      PositionsUnchanged
  else
    AddPositionsPrompt.

(** The events that can change the old book. *)
Definition touches_old (e : Event) : bool :=
  match e with
  | Add Old _ _ _ _ | RemoveLast Old | ClearAll Old | ClearBoth => true
  | _ => false
  end.

(** ** Vocabulary of the specification *)

(** The new and the base aggregate are of strictly opposite signs. *)
Definition opposite_sign (n b : Q) : Prop :=
  (0 < n /\ b < 0) \/ (n < 0 /\ 0 < b).

(** A reason text that announces the absence of a violation. *)
Definition no_violation_reason (reason : string) : bool :=
  prefix "No violation" reason.

(** The zero-base rule as the specification words it: a violation iff
    the new aggregate is non-zero, of magnitude [|n|], with the reason
    "from zero to non-zero" on a violation and a "no violation" reason
    when the new aggregate is zero as well. *)
Definition zero_base_rule_as_specified (n : Q) : Prop :=
  let r := check_violation n 0 in
  (has_violation r = true <-> ~ n == 0) /\
  violation_qty r == Qabs n /\
  (has_violation r = true ->
   violation_reason r = "From zero to non-zero"%string) /\
  (n == 0 ->
   has_violation r = false /\ violation_qty r == 0 /\
   no_violation_reason (violation_reason r) = true).

(** ** The documented BANDHANBNK case

    The texts of the Delta field used in the documented example, and
    the events that enter its two books. *)
Definition example_float (text : string) : option Q :=
  if (text =? "0.02323")%string then Some 0.02323
  else if (text =? "0.00562")%string then Some 0.00562
  else None.

Definition example_events : list Event :=
  [ Add Old "Call Option" "Long" 7200 "0.02323";
    Add Old "Call Option" "Short" 25200 "0.00562";
    Add New "Call Option" "Long" 7200 "0.02323";
    Add New "Call Option" "Short" 3600 "0.00562" ].


(** * Properties *)

(** ** Comparisons and built-ins *)

Lemma lt_true_iff (x y : Q) : Py.lt x y = true <-> x < y.
Proof.
  unfold Py.lt. rewrite negb_true_iff. split; intro H.
  - apply Qnot_le_lt. intro L. apply Qle_bool_iff in L. congruence.
  - destruct (Qle_bool y x) eqn:E; [| reflexivity].
    apply Qle_bool_iff in E. lra.
Qed.

Lemma lt_false_iff (x y : Q) : Py.lt x y = false <-> y <= x.
Proof.
  unfold Py.lt. rewrite negb_false_iff. apply Qle_bool_iff.
Qed.

Lemma eq_true_iff (x y : Q) : Py.eq x y = true <-> x == y.
Proof. apply Qeq_bool_iff. Qed.

Lemma eq_false_iff (x y : Q) : Py.eq x y = false <-> ~ x == y.
Proof.
  unfold Py.eq. split; intro H.
  - now apply Qeq_bool_neq.
  - destruct (Qeq_bool x y) eqn:E; [| reflexivity].
    apply Qeq_bool_iff in E. contradiction.
Qed.

(** Split on every comparison the goal evaluates, then turn the
    recorded outcomes into order facts. *)
Ltac py_split :=
  unfold Py.gt, Py.ne in *;
  repeat match goal with
    | |- context [Py.lt ?x ?y] => destruct (Py.lt x y) eqn:?
    | |- context [Py.eq ?x ?y] => destruct (Py.eq x y) eqn:?
    end.

Ltac py_facts :=
  repeat match goal with
    | H : Py.lt _ _ = true |- _ => apply lt_true_iff in H
    | H : Py.lt _ _ = false |- _ => apply lt_false_iff in H
    | H : Py.eq _ _ = true |- _ => apply eq_true_iff in H
    | H : Py.eq _ _ = false |- _ => apply eq_false_iff in H
    end.

Ltac py_solve := py_split; py_facts; cbn in *; try reflexivity; try lra.

Lemma max_floor (a x : Q) : x <= a -> Py.max a x = a.
Proof. intro H. unfold Py.max. py_solve. Qed.

Lemma max_above (a x : Q) : a < x -> Py.max a x = x.
Proof. intro H. unfold Py.max. py_solve. Qed.

Lemma min_cap (a x : Q) : a <= x -> Py.min a x = a.
Proof. intro H. unfold Py.min. py_solve. Qed.

Lemma min_below (a x : Q) : x < a -> Py.min a x = x.
Proof. intro H. unfold Py.min. py_solve. Qed.

(** The clamp of [calculate_penalty]. *)
Lemma clamp_low (x : Q) :
  x <= 5000 -> Py.max 5000 (Py.min 100000 x) = 5000.
Proof.
  intro H. rewrite min_below by lra. now apply max_floor.
Qed.

Lemma clamp_mid (x : Q) :
  5000 < x -> x < 100000 -> Py.max 5000 (Py.min 100000 x) = x.
Proof.
  intros H1 H2. rewrite min_below by lra. now apply max_above.
Qed.

Lemma clamp_high (x : Q) :
  100000 <= x -> Py.max 5000 (Py.min 100000 x) = 100000.
Proof.
  intro H. rewrite min_cap by lra. apply max_above. lra.
Qed.

Lemma clamp_bounds (x : Q) :
  5000 <= Py.max 5000 (Py.min 100000 x) /\
  Py.max 5000 (Py.min 100000 x) <= 100000.
Proof.
  destruct (Qlt_le_dec 5000 x) as [L | L].
  - destruct (Qlt_le_dec x 100000) as [U | U].
    + rewrite clamp_mid by assumption. lra.
    + rewrite clamp_high by assumption. lra.
  - rewrite clamp_low by assumption. lra.
Qed.

(** ** Violation detector *)

Lemma sign_changed_iff (n b : Q) :
  (Py.gt n 0 && Py.lt b 0) || (Py.lt n 0 && Py.gt b 0) = true
  <-> opposite_sign n b.
Proof.
  unfold opposite_sign, Py.gt.
  rewrite orb_true_iff, !andb_true_iff, !lt_true_iff. tauto.
Qed.

Lemma sign_changed_false (n b : Q) :
  ~ opposite_sign n b ->
  (Py.gt n 0 && Py.lt b 0) || (Py.lt n 0 && Py.gt b 0) = false.
Proof.
  intro H. apply not_true_is_false. intro E.
  now apply sign_changed_iff in E.
Qed.

(** C1: with a non-zero base and no strict sign change, a violation is
    reported exactly when the new aggregate is greater than the base;
    the magnitude is then [|n - b|], and otherwise the result is "no
    violation" with magnitude 0.  In particular an unchanged aggregate
    is never a violation, and going from -5 to -1 is one of magnitude
    4. *)
Theorem check_violation_same_sign (n b : Q) :
  ~ b == 0 -> ~ opposite_sign n b ->
  (has_violation (check_violation n b) = true <-> b < n) /\
  (b < n ->
   check_violation n b =
   (true, Qabs (n - b), "Net Delta increased in same direction"%string)) /\
  (~ b < n ->
   check_violation n b =
   (false, 0, "No violation - Delta decreased or remained same"%string)) /\
  has_violation (check_violation b b) = false /\
  check_violation (-1) (-5) =
  (true, 4, "Net Delta increased in same direction"%string).
Proof.
  intros Hb Hs.
  assert (E0 : Py.eq b 0 = false) by now apply eq_false_iff.
  assert (Es := sign_changed_false n b Hs).
  assert (Eb : (Py.gt b 0 && Py.lt b 0) || (Py.lt b 0 && Py.gt b 0) = false).
  { apply sign_changed_false. unfold opposite_sign. lra. }
  assert (Inc : (if Py.lt b 0 then Py.gt n b else Py.gt n b) = Py.gt n b)
    by now destruct (Py.lt b 0).
  assert (Same : (if Py.lt b 0 then Py.gt b b else Py.gt b b) = false).
  { destruct (Py.lt b 0); apply lt_false_iff; lra. }
  unfold check_violation, has_violation.
  rewrite E0, Es, Eb, Inc, Same. cbn [fst snd].
  repeat split.
  - destruct (Py.gt n b) eqn:G; cbn; [intros _ | discriminate].
    now apply lt_true_iff in G.
  - intro L. apply lt_true_iff in L. fold (Py.gt n b) in L. now rewrite L.
  - intro L. apply lt_true_iff in L. fold (Py.gt n b) in L. now rewrite L.
  - intro L. destruct (Py.gt n b) eqn:G; [| reflexivity].
    apply lt_true_iff in G. contradiction.
Qed.

Lemma check_violation_same_sign_witness :
  ~ 4 == 0 /\ ~ opposite_sign 10 4 /\
  has_violation (check_violation 10 4) = true /\
  check_violation 10 4 =
  (true, Qabs (10 - 4), "Net Delta increased in same direction"%string) /\
  check_violation 4 10 =
  (false, 0, "No violation - Delta decreased or remained same"%string).
Proof.
  assert (B4 : ~ 4 == 0) by (intro H; discriminate H).
  assert (B10 : ~ 10 == 0) by (intro H; discriminate H).
  assert (S1 : ~ opposite_sign 10 4).
  { intros [[_ H] | [H _]]; discriminate H. }
  assert (S2 : ~ opposite_sign 4 10).
  { intros [[_ H] | [H _]]; discriminate H. }
  destruct (check_violation_same_sign 10 4 B4 S1) as (I & V & _).
  destruct (check_violation_same_sign 4 10 B10 S2) as (_ & _ & N & _).
  split; [exact B4 |]. split; [exact S1 |].
  split; [apply I; reflexivity |].
  split; [apply V; reflexivity |].
  apply N. intro H. discriminate H.
Defined.

(** C2: when the new and the base aggregate are of strictly opposite
    signs, a violation is reported unconditionally, with magnitude
    [|n - b|]; the reason names the direction of the sign change, taken
    from the sign the new aggregate ended up with.  From -3 to 5 is a
    violation of magnitude 8. *)
Theorem check_violation_sign_change (n b : Q) :
  opposite_sign n b ->
  has_violation (check_violation n b) = true /\
  violation_qty (check_violation n b) = Qabs (n - b) /\
  (0 < n ->
   violation_reason (check_violation n b) =
   "Sign changed from negative to positive"%string) /\
  (n < 0 ->
   violation_reason (check_violation n b) =
   "Sign changed from positive to negative"%string) /\
  check_violation 5 (-3) =
  (true, 8, "Sign changed from negative to positive"%string).
Proof.
  intro Hs.
  assert (E0 : Py.eq b 0 = false).
  { apply eq_false_iff. unfold opposite_sign in Hs. lra. }
  assert (Es := proj2 (sign_changed_iff n b) Hs).
  unfold check_violation, has_violation, violation_qty, violation_reason.
  rewrite E0, Es. cbn [fst snd].
  repeat split.
  - intro P. apply lt_true_iff in P. fold (Py.gt n 0) in P. now rewrite P.
  - intro N. assert (G : Py.gt n 0 = false) by (apply lt_false_iff; lra).
    now rewrite G.
Qed.

Lemma check_violation_sign_change_witness :
  opposite_sign 1570.7040 (-2732.9080) /\
  has_violation (check_violation 1570.7040 (-2732.9080)) = true /\
  violation_qty (check_violation 1570.7040 (-2732.9080)) == 4303.6120 /\
  violation_reason (check_violation 1570.7040 (-2732.9080)) =
  "Sign changed from negative to positive"%string.
Proof.
  assert (S : opposite_sign 1570.7040 (-2732.9080)).
  { left. split; reflexivity. }
  destruct (check_violation_sign_change _ _ S) as (V & M & R & _).
  split; [exact S |].
  split; [exact V |].
  split; [rewrite M; reflexivity |].
  apply R. reflexivity.
Defined.

(** C3, as stated, fails at [n = 0]: the result carries the reason
    "From zero to non-zero" although no violation is reported. *)
Lemma zero_base_rule_fails_at_zero :
  check_violation 0 0 = (false, 0, "From zero to non-zero"%string) /\
  ~ zero_base_rule_as_specified 0.
Proof.
  split; [reflexivity |].
  intros (_ & _ & _ & H).
  destruct (H (Qeq_refl 0)) as (_ & _ & R).
  discriminate R.
Qed.

(** C3 (amended): with a zero base, a violation is reported iff the new
    aggregate is non-zero, the magnitude is [|n|] (hence 0 when the new
    aggregate is zero), and the reason is "From zero to non-zero" in
    every case, also when no violation is reported. *)
Theorem check_violation_zero_base (n b : Q) :
  b == 0 ->
  check_violation n b =
  (Py.ne n 0, Qabs n, "From zero to non-zero"%string) /\
  (has_violation (check_violation n b) = true <-> ~ n == 0) /\
  (n == 0 ->
   has_violation (check_violation n b) = false /\
   violation_qty (check_violation n b) == 0).
Proof.
  intro Hb. apply eq_true_iff in Hb.
  unfold check_violation, has_violation, violation_qty.
  rewrite Hb. cbn [fst snd]. unfold Py.ne.
  split; [reflexivity |]. split.
  - rewrite negb_true_iff. apply eq_false_iff.
  - intro Hn. split.
    + apply negb_false_iff. now apply eq_true_iff.
    + rewrite Hn. reflexivity.
Qed.

Lemma check_violation_zero_base_witness :
  (0 # 4) == 0 /\
  check_violation 7 (0 # 4) = (true, 7, "From zero to non-zero"%string) /\
  check_violation (0 # 3) (0 # 4) =
  (false, 0 # 3, "From zero to non-zero"%string).
Proof.
  assert (B : (0 # 4) == 0) by reflexivity.
  split; [exact B |].
  split.
  - exact (proj1 (check_violation_zero_base 7 (0 # 4) B)).
  - exact (proj1 (check_violation_zero_base (0 # 3) (0 # 4) B)).
Defined.

(** ** Position valuer *)

(** C4: a Put contributes [-|s| * q] when long and [|s| * q] when
    short; the sign typed for the sensitivity has no effect on the
    result. *)
Theorem put_option_value (q s : Q) :
  calculate_position_delta "Put Option" "Long" q s = - Qabs s * q /\
  calculate_position_delta "Put Option" "Short" q s = Qabs s * q /\
  calculate_position_delta "Put Option" "Long" q (- s) ==
  calculate_position_delta "Put Option" "Long" q s /\
  calculate_position_delta "Put Option" "Short" q (- s) ==
  calculate_position_delta "Put Option" "Short" q s.
Proof.
  split; [reflexivity |]. split; [reflexivity |]. split.
  - change (- Qabs (- s) * q == - Qabs s * q).
    rewrite Qabs_opp. reflexivity.
  - change (Qabs (- s) * q == Qabs s * q).
    rewrite Qabs_opp. reflexivity.
Qed.

(** C5: a Call contributes [s * q] when long and [-s * q] when short;
    the sensitivity is used with the sign it comes with, so a negative
    one gives a negative long contribution. *)
Theorem call_option_value (q s : Q) :
  calculate_position_delta "Call Option" "Long" q s = s * q /\
  calculate_position_delta "Call Option" "Short" q s = - s * q /\
  calculate_position_delta "Call Option" "Long" q (- s) ==
  - calculate_position_delta "Call Option" "Long" q s /\
  calculate_position_delta "Call Option" "Long" 2 (-0.5) == -1.
Proof.
  split; [reflexivity |]. split; [reflexivity |]. split.
  - change (- s * q == - (s * q)). ring.
  - reflexivity.
Qed.

(** C8: a Future contributes [q] when long and [-q] when short,
    whatever the sensitivity argument is. *)
Theorem future_value (q s : Q) :
  calculate_position_delta "Future" "Long" q s == q /\
  calculate_position_delta "Future" "Short" q s == - q /\
  (forall (direction : string) (s' : Q),
     calculate_position_delta "Future" direction q s =
     calculate_position_delta "Future" direction q s').
Proof.
  split; [| split].
  - change (1 * q == q). ring.
  - change (-1 * q == - q). ring.
  - intros direction s'. reflexivity.
Qed.

(** C10: every kind other than "Future" and "Call Option" is valued by
    the Put rule, and every direction other than "Long" is valued as
    "Short", whatever the kind. *)
Theorem unrecognised_values_fall_through
    (pos_type direction : string) (q s : Q) :
  pos_type <> "Future"%string ->
  pos_type <> "Call Option"%string ->
  calculate_position_delta pos_type direction q s =
  (if (direction =? "Long")%string then - Qabs s * q else Qabs s * q) /\
  calculate_position_delta pos_type direction q s =
  calculate_position_delta "Put Option" direction q s /\
  (direction <> "Long"%string ->
   forall kind : string,
     calculate_position_delta kind direction q s =
     calculate_position_delta kind "Short" q s).
Proof.
  intros HF HC.
  apply String.eqb_neq in HF, HC.
  unfold calculate_position_delta, Py.float.
  rewrite HF, HC.
  split; [now destruct (direction =? "Long")%string |].
  split; [reflexivity |].
  intros HL kind. apply String.eqb_neq in HL. rewrite HL. reflexivity.
Qed.

Lemma unrecognised_values_fall_through_witness :
  "Swap"%string <> "Future"%string /\
  "Swap"%string <> "Call Option"%string /\
  "Sideways"%string <> "Long"%string /\
  calculate_position_delta "Swap" "Long" 10 0.5 = - Qabs 0.5 * 10 /\
  calculate_position_delta "Swap" "Sideways" 10 (-0.5) = Qabs (-0.5) * 10 /\
  calculate_position_delta "Call Option" "Sideways" 10 0.5 =
  calculate_position_delta "Call Option" "Short" 10 0.5.
Proof.
  assert (F : "Swap"%string <> "Future"%string) by discriminate.
  assert (C : "Swap"%string <> "Call Option"%string) by discriminate.
  assert (L : "Sideways"%string <> "Long"%string) by discriminate.
  split; [exact F |]. split; [exact C |]. split; [exact L |].
  split.
  - exact (proj1 (unrecognised_values_fall_through "Swap" "Long" 10 0.5 F C)).
  - split.
    + exact (proj1 (unrecognised_values_fall_through
                      "Swap" "Sideways" 10 (-0.5) F C)).
    + exact (proj2 (proj2 (unrecognised_values_fall_through
                             "Swap" "Sideways" 10 0.5 F C))
               L "Call Option"%string).
Defined.

(** ** Penalty calculator *)

Lemma py_max_is_Qmax (a b : Q) : Py.max a b == Qmax a b.
Proof.
  unfold Py.max. destruct (Py.gt b a) eqn:G; unfold Py.gt in G.
  - apply lt_true_iff in G. symmetry. apply Q.max_r. lra.
  - apply lt_false_iff in G. symmetry. now apply Q.max_l.
Qed.

Lemma py_min_is_Qmin (a b : Q) : Py.min a b == Qmin a b.
Proof.
  unfold Py.min. destruct (Py.lt b a) eqn:L.
  - apply lt_true_iff in L. symmetry. apply Q.min_r. lra.
  - apply lt_false_iff in L. symmetry. now apply Q.min_l.
Qed.

(** C6: the four components of the penalty are the raw amount
    [|m| * p * 0.01], its clamp into [5000, 100000], 18% of the clamped
    amount, and their sum.  The function is total; the floor applies
    also to a zero magnitude or a zero price, and a magnitude of 100000
    at price 1000 gives (1000000, 100000, 18000, 118000). *)
Theorem calculate_penalty_formula (m p : Q) :
  penalty_raw (calculate_penalty m p) = Qabs m * p * 0.01 /\
  final_penalty (calculate_penalty m p) =
  Py.max 5000 (Py.min 100000 (penalty_raw (calculate_penalty m p))) /\
  final_penalty (calculate_penalty m p) ==
  Qmax 5000 (Qmin 100000 (Qabs m * p * 0.01)) /\
  gst (calculate_penalty m p) = final_penalty (calculate_penalty m p) * 0.18 /\
  total_penalty (calculate_penalty m p) =
  final_penalty (calculate_penalty m p) + gst (calculate_penalty m p) /\
  5000 <= final_penalty (calculate_penalty m p) <= 100000 /\
  final_penalty (calculate_penalty 0 p) = 5000 /\
  final_penalty (calculate_penalty m 0) = 5000 /\
  (penalty_raw (calculate_penalty 100000 1000) == 1000000 /\
   final_penalty (calculate_penalty 100000 1000) == 100000 /\
   gst (calculate_penalty 100000 1000) == 18000 /\
   total_penalty (calculate_penalty 100000 1000) == 118000).
Proof.
  unfold calculate_penalty, penalty_raw, final_penalty, gst, total_penalty.
  cbn [fst snd].
  split; [reflexivity |]. split; [reflexivity |]. split.
  { rewrite py_max_is_Qmax.
    apply Q.max_compat; [reflexivity | apply py_min_is_Qmin]. }
  split; [reflexivity |]. split; [reflexivity |].
  split; [apply clamp_bounds |]. split.
  { apply clamp_low. change (Qabs 0) with 0. lra. }
  split.
  { apply clamp_low. lra. }
  repeat split.
Qed.

Module Binary64Facts.

Import PrimFloat.
Local Open Scope float_scope.

(** C7, as stated, fails on machine numbers: for the non-zero
    magnitude 1e-200 and the negative price -1e-200 the product
    underflows, the raw amount is the zero [-0.0] and not a negative
    number; the clamped amount, the surcharge and the total are 5000,
    900 and 5900 all the same. *)
#[warnings="-inexact-float"]
Lemma negative_raw_fails_on_underflow :
  ((1e-200 =? 0) = false /\ (-1e-200 <? 0) = true) /\
  ((fst (fst (fst (Binary64.calculate_penalty 1e-200 (-1e-200)))) <? 0)
   = false /\
   (fst (fst (fst (Binary64.calculate_penalty 1e-200 (-1e-200)))) =? 0)
   = true /\
   (snd (fst (fst (Binary64.calculate_penalty 1e-200 (-1e-200)))) =? 5000)
   = true /\
   (snd (fst (Binary64.calculate_penalty 1e-200 (-1e-200))) =? 900)
   = true /\
   (snd (Binary64.calculate_penalty 1e-200 (-1e-200)) =? 5900)
   = true) /\
  ~ Binary64.negative_price_rule_as_specified 1e-200 (-1e-200).
Proof.
  split; [split; reflexivity |].
  split; [repeat split |].
  intro H. destruct (H eq_refl eq_refl) as (R & _).
  vm_compute in R. discriminate R.
Qed.

End Binary64Facts.

(** C7 (amended): a negative reference price is not rejected: with a
    non-zero magnitude the raw amount is not positive, and the clamp
    returns the floor, so the result is 5000 + 900 = 5900. *)
Theorem negative_price_is_floored (m p : Q) :
  ~ m == 0 -> p < 0 ->
  penalty_raw (calculate_penalty m p) <= 0 /\
  final_penalty (calculate_penalty m p) = 5000 /\
  gst (calculate_penalty m p) == 900 /\
  total_penalty (calculate_penalty m p) == 5900.
Proof.
  intros Hm Hp.
  assert (A : 0 < Qabs m).
  { apply Qabs_case; intro S; lra. }
  assert (R : Qabs m * p * 0.01 < 0) by nra.
  unfold calculate_penalty, penalty_raw, final_penalty, gst, total_penalty.
  cbn [fst snd].
  rewrite clamp_low by lra.
  repeat split. lra.
Qed.

Lemma negative_price_is_floored_witness :
  ~ 3 == 0 /\ -200 < 0 /\
  penalty_raw (calculate_penalty 3 (-200)) <= 0 /\
  final_penalty (calculate_penalty 3 (-200)) = 5000 /\
  gst (calculate_penalty 3 (-200)) == 900 /\
  total_penalty (calculate_penalty 3 (-200)) == 5900.
Proof.
  assert (M : ~ 3 == 0) by (intro H; discriminate H).
  assert (P : -200 < 0) by reflexivity.
  split; [exact M |]. split; [exact P |].
  exact (negative_price_is_floored 3 (-200) M P).
Defined.

(** ** Aggregation over the books *)

Lemma net_of_snoc (l : list Position) (row : Position) :
  net_of (l ++ [row]) = net_of l + Position_Delta row.
Proof.
  unfold net_of, Py.sum. rewrite map_app, fold_left_app. reflexivity.
Qed.

Lemma set_book_same (b : Book) (s : SessionState) :
  set_book b (book b s) s = s.
Proof. destruct s, b; reflexivity. Qed.

Lemma set_book_twice (b : Book) (l l' : list Position) (s : SessionState) :
  set_book b l (set_book b l' s) = set_book b l s.
Proof. destruct b; reflexivity. Qed.

Lemma book_set_book (b : Book) (l : list Position) (s : SessionState) :
  book b (set_book b l s) = l.
Proof. destruct b; reflexivity. Qed.

Section SessionProperties.

Variable float_of_text : string -> option Q.

Let ok_row := row_ok float_of_text.
Let ok_state := state_ok float_of_text.
Let step := handle float_of_text.
Let run_from_start := run float_of_text.
Let recompute := values float_of_text.

Lemma new_row_ok (type direction : string) (qty : Z) (delta : string)
    (row : Position) :
  new_row float_of_text type direction qty delta = Some row -> ok_row row.
Proof.
  unfold ok_row, new_row, row_ok, value_position.
  destruct (float_of_text delta) as [d |] eqn:E; [| discriminate].
  intro H. injection H as <-. cbn. now rewrite E.
Qed.

Lemma Forall_removelast {A : Type} (P : A -> Prop) (l : list A) :
  Forall P l -> Forall P (removelast l).
Proof.
  induction 1 as [| x l Hx Hl IH]; cbn; [constructor |].
  destruct l; [constructor | now constructor].
Qed.

Lemma set_book_ok (b : Book) (l : list Position) (s : SessionState) :
  ok_state s -> Forall ok_row l -> ok_state (set_book b l s).
Proof.
  intros [Ho Hn] Hl. destruct b; split; cbn; assumption.
Qed.

Lemma book_ok (b : Book) (s : SessionState) :
  ok_state s -> Forall ok_row (book b s).
Proof.
  intros [Ho Hn]. now destruct b.
Qed.

(** Every interaction keeps the stored contributions in step with the
    stored inputs. *)
Lemma handle_ok (s : SessionState) (e : Event) :
  ok_state s -> ok_state (step s e).
Proof.
  intro Hs. destruct e as [b ty d q t | b | b | | |]; cbn.
  - destruct (new_row _ _ _ _ _) as [row |] eqn:E; [| exact Hs].
    apply set_book_ok; [exact Hs |].
    apply Forall_app. split; [now apply book_ok |].
    constructor; [| constructor]. exact (new_row_ok _ _ _ _ _ E).
  - apply set_book_ok; [exact Hs |].
    apply Forall_removelast. now apply book_ok.
  - apply set_book_ok; [exact Hs | constructor].
  - destruct (old_positions s) eqn:E; [exact Hs |].
    rewrite <- E. apply (set_book_ok New); [exact Hs | apply Hs].
  - split; constructor.
  - exact Hs.
Qed.

Lemma fold_handle_ok (es : list Event) (s : SessionState) :
  ok_state s -> ok_state (fold_left step es s).
Proof.
  revert s. induction es as [| e es IH]; intros s Hs; cbn.
  - exact Hs.
  - apply IH. now apply handle_ok.
Qed.

Lemma run_ok (es : list Event) : ok_state (run_from_start es).
Proof.
  apply fold_handle_ok. split; constructor.
Qed.

Lemma values_of_ok (l : list Position) :
  Forall ok_row l -> recompute l = Some (map Position_Delta l).
Proof.
  induction 1 as [| p l Hp Hl IH]; cbn; [reflexivity |].
  unfold ok_row, row_ok in Hp. now rewrite Hp, IH.
Qed.

(** Entering a list of entries into one book appends their rows. *)
Lemma fold_submit (b : Book) (entries : list Entry) (s : SessionState) :
  Forall (fun e => float_of_text (entry_text e) = Some (entry_delta e))
    entries ->
  fold_left step (map (submit b) entries) s =
  set_book b (book b s ++ map entry_row entries) s.
Proof.
  intro H. revert s.
  induction H as [| e entries He _ IH]; intro s; cbn [map fold_left].
  - rewrite app_nil_r. symmetry. apply set_book_same.
  - assert (E1 : step s (submit b e) =
                 set_book b (book b s ++ [entry_row e]) s).
    { unfold step, submit. cbn [handle]. unfold new_row.
      rewrite He. reflexivity. }
    rewrite E1, IH.
    rewrite book_set_book, set_book_twice, <- app_assoc. reflexivity.
Qed.


End SessionProperties.


(** The documented case, end to end and in exact arithmetic: base
    25.632, new 147.024, a
    same-direction violation of 121.392, and at price 135.47 a raw
    amount below the floor, hence 5000 + 900. *)
Example bandhan_bank_case :
  let s := run example_float example_events in
  base_delta s == 25.632 /\ net_delta s == 147.024 /\
  has_violation (check_violation (net_delta s) (base_delta s)) = true /\
  violation_qty (check_violation (net_delta s) (base_delta s)) == 121.392 /\
  violation_reason (check_violation (net_delta s) (base_delta s)) =
  "Net Delta increased in same direction"%string /\
  final_penalty (calculate_penalty 121.392 135.47) = 5000 /\
  total_penalty (calculate_penalty 121.392 135.47) == 5900.
Proof. vm_compute. repeat split. Qed.

(** * Further properties of the code *)

(** ** Position valuer *)

(** X1: whatever the kind, a position in any direction other than
    "Long" contributes the opposite of the long position of the same
    quantity and sensitivity. *)
Theorem short_is_opposite_of_long
    (pos_type direction : string) (q s : Q) :
  direction <> "Long"%string ->
  calculate_position_delta pos_type direction q s ==
  - calculate_position_delta pos_type "Long" q s.
Proof.
  intro HL. apply String.eqb_neq in HL.
  unfold calculate_position_delta, Py.float. rewrite HL.
  change ("Long" =? "Long")%string with true. cbv iota.
  destruct (pos_type =? "Future")%string;
    [| destruct (pos_type =? "Call Option")%string]; ring.
Qed.

Lemma short_is_opposite_of_long_witness :
  "Short"%string <> "Long"%string /\
  calculate_position_delta "Put Option" "Short" 3600 (-0.5) ==
  - calculate_position_delta "Put Option" "Long" 3600 (-0.5).
Proof.
  assert (H : "Short"%string <> "Long"%string) by discriminate.
  split; [exact H |].
  exact (short_is_opposite_of_long "Put Option" "Short" 3600 (-0.5) H).
Defined.

(** X2: the size of a contribution is the size of the quantity, times
    1 for a Future and times the size of the sensitivity for every
    other kind; the direction plays no part in it. *)
Theorem contribution_magnitude (pos_type direction : string) (q s : Q) :
  Qabs (calculate_position_delta pos_type direction q s) ==
  (if (pos_type =? "Future")%string then 1 else Qabs s) * Qabs q.
Proof.
  assert (AA : Qabs (Qabs s) == Qabs s)
    by (apply Qabs_pos, Qabs_nonneg).
  unfold calculate_position_delta, Py.float.
  destruct (pos_type =? "Future")%string;
    [| destruct (pos_type =? "Call Option")%string];
    destruct (direction =? "Long")%string;
    rewrite Qabs_Qmult, ?Qabs_opp, ?AA; reflexivity.
Qed.

(** X3: with a non-negative quantity and a sensitivity in [0, 1], the
    contributions lie in the ranges the help text gives per unit: long
    call in [0, q], short call in [-q, 0], long put in [-q, 0], short
    put in [0, q]. *)
Theorem documented_delta_ranges (q s : Q) :
  0 <= q -> 0 <= s -> s <= 1 ->
  (0 <= calculate_position_delta "Call Option" "Long" q s <= q) /\
  (- q <= calculate_position_delta "Call Option" "Short" q s <= 0) /\
  (- q <= calculate_position_delta "Put Option" "Long" q s <= 0) /\
  (0 <= calculate_position_delta "Put Option" "Short" q s <= q).
Proof.
  intros Hq Hs0 Hs1.
  assert (A : Qabs s == s) by now apply Qabs_pos.
  change (calculate_position_delta "Call Option" "Long" q s) with (s * q).
  change (calculate_position_delta "Call Option" "Short" q s) with (- s * q).
  change (calculate_position_delta "Put Option" "Long" q s)
    with (- Qabs s * q).
  change (calculate_position_delta "Put Option" "Short" q s)
    with (Qabs s * q).
  rewrite A.
  repeat split; nra.
Qed.

Lemma documented_delta_ranges_witness :
  0 <= 7200 /\ 0 <= 0.02323 /\ 0.02323 <= 1 /\
  (0 <= calculate_position_delta "Call Option" "Long" 7200 0.02323 <= 7200) /\
  (- 7200 <= calculate_position_delta "Put Option" "Long" 7200 0.02323 <= 0).
Proof.
  assert (Hq : 0 <= 7200) by discriminate.
  assert (H0 : 0 <= 0.02323) by discriminate.
  assert (H1 : 0.02323 <= 1) by discriminate.
  destruct (documented_delta_ranges 7200 0.02323 Hq H0 H1) as (C & _ & P & _).
  repeat split; try assumption; try apply C; apply P.
Defined.

(** ** Violation detector *)

Lemma Qabs_pos_iff (x : Q) : 0 < Qabs x <-> ~ x == 0.
Proof.
  split.
  - intros H E. rewrite E in H. discriminate H.
  - intro H. apply Qabs_case; intro S; lra.
Qed.

Lemma no_violation_cases (n b : Q) :
  has_violation (check_violation n b) = false <->
  (b == 0 /\ n == 0) \/ (0 < b /\ 0 <= n /\ n <= b) \/ (b < 0 /\ n <= b).
Proof.
  unfold check_violation, has_violation, Py.ne.
  change (Qeq_bool n 0) with (Py.eq n 0).
  py_split; py_facts; cbn;
    (split;
     [intros H; try discriminate H; lra | intros H; try reflexivity; lra]).
Qed.

(** X4: no violation is reported exactly in three situations: both
    aggregates are zero; the base is positive and the new aggregate lies
    between zero and the base; or the base is negative and the new
    aggregate is at or below it. *)
Theorem no_violation_iff (n b : Q) :
  has_violation (check_violation n b) = false <->
  (b == 0 /\ n == 0) \/ (0 < b /\ 0 <= n /\ n <= b) \/ (b < 0 /\ n <= b).
Proof. apply no_violation_cases. Qed.

Lemma violation_qty_facts (n b : Q) :
  violation_qty (check_violation n b) ==
  (if has_violation (check_violation n b) then Qabs (n - b) else 0) /\
  (has_violation (check_violation n b) = true <->
   0 < violation_qty (check_violation n b)).
Proof.
  unfold check_violation, has_violation, violation_qty.
  destruct (Py.eq b 0) eqn:Eb; cbn [fst snd].
  - apply eq_true_iff in Eb.
    assert (D : n - b == n) by lra.
    unfold Py.ne. fold (Py.eq n 0).
    destruct (Py.eq n 0) eqn:En; cbn [negb].
    + apply eq_true_iff in En. rewrite En. split; [reflexivity |].
      split; [discriminate | intro H; discriminate H].
    + apply eq_false_iff in En. rewrite D. split; [reflexivity |].
      split; [intros _; now apply Qabs_pos_iff | reflexivity].
  - apply eq_false_iff in Eb.
    destruct ((Py.gt n 0 && Py.lt b 0) || (Py.lt n 0 && Py.gt b 0)) eqn:Es;
      cbn [fst snd].
    + apply sign_changed_iff in Es. split; [reflexivity |].
      split; [intros _ | reflexivity].
      apply Qabs_pos_iff. unfold opposite_sign in Es. lra.
    + assert (Inc : (if Py.lt b 0 then Py.gt n b else Py.gt n b) = Py.gt n b)
        by now destruct (Py.lt b 0).
      rewrite Inc. destruct (Py.gt n b) eqn:G; cbn [fst snd].
      * apply lt_true_iff in G. split; [reflexivity |].
        split; [intros _ | reflexivity].
        apply Qabs_pos_iff. lra.
      * split; [reflexivity |].
        split; [discriminate | intro H; discriminate H].
Qed.

(** X5: the reported quantity is the absolute change [|n - b|] when a
    violation is reported and zero otherwise; a violation is reported
    exactly when the reported quantity is positive. *)
Theorem violation_qty_is_abs_change (n b : Q) :
  violation_qty (check_violation n b) ==
  (if has_violation (check_violation n b) then Qabs (n - b) else 0) /\
  (has_violation (check_violation n b) = true <->
   0 < violation_qty (check_violation n b)).
Proof. apply violation_qty_facts. Qed.

(** ** Penalty calculator *)

Lemma clamp_cases (x : Q) :
  (x <= 5000 /\ Py.max 5000 (Py.min 100000 x) = 5000) \/
  (5000 < x /\ x < 100000 /\ Py.max 5000 (Py.min 100000 x) = x) \/
  (100000 <= x /\ Py.max 5000 (Py.min 100000 x) = 100000).
Proof.
  destruct (Qlt_le_dec 5000 x) as [L | L].
  - destruct (Qlt_le_dec x 100000) as [U | U].
    + right. left. auto using clamp_mid.
    + right. right. auto using clamp_high.
  - left. auto using clamp_low.
Qed.

Lemma clamp_monotone (x y : Q) :
  x <= y ->
  Py.max 5000 (Py.min 100000 x) <= Py.max 5000 (Py.min 100000 y).
Proof.
  intro H.
  destruct (clamp_cases x) as [(X & ->) | [(X1 & X2 & ->) | (X & ->)]];
    destruct (clamp_cases y) as [(Y & ->) | [(Y1 & Y2 & ->) | (Y & ->)]];
    lra.
Qed.

Lemma total_in_range (m p : Q) :
  5900 <= total_penalty (calculate_penalty m p) <= 118000.
Proof.
  unfold calculate_penalty, total_penalty. cbn [fst snd].
  destruct (clamp_bounds (Qabs m * p * 0.01)) as [L U].
  split; lra.
Qed.

(** X6: whatever the magnitude and the price, the total lies between
    5900 and 118000 and the surcharge between 900 and 18000. *)
Theorem total_penalty_bounds (m p : Q) :
  5900 <= total_penalty (calculate_penalty m p) <= 118000 /\
  900 <= gst (calculate_penalty m p) <= 18000.
Proof.
  split; [apply total_in_range |].
  unfold calculate_penalty, gst. cbn [fst snd].
  destruct (clamp_bounds (Qabs m * p * 0.01)) as [L U].
  split; lra.
Qed.

(** X7: at a non-negative price, a larger violation quantity never
    gives a smaller clamped penalty or a smaller total. *)
Theorem penalty_monotone_in_quantity (m1 m2 p : Q) :
  0 <= p -> Qabs m1 <= Qabs m2 ->
  final_penalty (calculate_penalty m1 p) <=
  final_penalty (calculate_penalty m2 p) /\
  total_penalty (calculate_penalty m1 p) <=
  total_penalty (calculate_penalty m2 p).
Proof.
  intros Hp Hm.
  unfold calculate_penalty, total_penalty, final_penalty. cbn [fst snd].
  assert (R : Qabs m1 * p * 0.01 <= Qabs m2 * p * 0.01) by nra.
  apply clamp_monotone in R.
  split; lra.
Qed.

Lemma penalty_monotone_in_quantity_witness :
  0 <= 135.47 /\ Qabs 121.392 <= Qabs (-90000) /\
  final_penalty (calculate_penalty 121.392 135.47) <=
  final_penalty (calculate_penalty (-90000) 135.47).
Proof.
  assert (Hp : 0 <= 135.47) by discriminate.
  assert (Hm : Qabs 121.392 <= Qabs (-90000)) by discriminate.
  split; [exact Hp |]. split; [exact Hm |].
  exact (proj1 (penalty_monotone_in_quantity 121.392 (-90000) 135.47 Hp Hm)).
Defined.

(** X8: the clamped penalty is the floor 5000 exactly when the raw
    amount is at most 5000, the cap 100000 exactly when the raw amount
    is not below 100000, and the raw amount itself strictly in
    between. *)
Theorem penalty_thresholds (m p : Q) :
  (final_penalty (calculate_penalty m p) == 5000 <->
   penalty_raw (calculate_penalty m p) <= 5000) /\
  (final_penalty (calculate_penalty m p) == 100000 <->
   ~ penalty_raw (calculate_penalty m p) < 100000) /\
  (5000 < penalty_raw (calculate_penalty m p) ->
   penalty_raw (calculate_penalty m p) < 100000 ->
   final_penalty (calculate_penalty m p) =
   penalty_raw (calculate_penalty m p)).
Proof.
  unfold calculate_penalty, final_penalty, penalty_raw. cbn [fst snd].
  destruct (clamp_cases (Qabs m * p * 0.01))
    as [(X & E) | [(X1 & X2 & E) | (X & E)]]; rewrite E;
    (split; [split; intro H; lra |]);
    (split; [split; intro H; lra |]);
    intros H1 H2; try reflexivity; lra.
Qed.

Lemma penalty_thresholds_witness :
  5000 < penalty_raw (calculate_penalty 9000 135.47) /\
  penalty_raw (calculate_penalty 9000 135.47) < 100000 /\
  final_penalty (calculate_penalty 9000 135.47) =
  penalty_raw (calculate_penalty 9000 135.47) /\
  final_penalty (calculate_penalty 121.392 135.47) == 5000.
Proof.
  assert (L : 5000 < penalty_raw (calculate_penalty 9000 135.47))
    by reflexivity.
  assert (U : penalty_raw (calculate_penalty 9000 135.47) < 100000)
    by reflexivity.
  assert (F : penalty_raw (calculate_penalty 121.392 135.47) <= 5000)
    by discriminate.
  split; [exact L |]. split; [exact U |]. split.
  - exact (proj2 (proj2 (penalty_thresholds 9000 135.47)) L U).
  - exact (proj2 (proj1 (penalty_thresholds 121.392 135.47)) F).
Defined.

(** ** Interactions on the books *)

Lemma check_violation_unchanged (x : Q) :
  has_violation (check_violation x x) = false.
Proof. apply no_violation_cases. lra. Qed.

Lemma results_unfold (s : SessionState) (price : Q) :
  results s price =
  if truthy (old_positions s) || truthy (new_positions s) then
    if has_violation (check_violation (net_delta s) (base_delta s)) then
      ViolationDetected
        (violation_reason (check_violation (net_delta s) (base_delta s)))
        (violation_qty (check_violation (net_delta s) (base_delta s)))
        (calculate_penalty
           (violation_qty (check_violation (net_delta s) (base_delta s)))
           price)
    else if Py.eq (base_delta s) 0 && Py.eq (net_delta s) 0 then
      NoPositionsToEvaluate
    else if Py.ne (net_delta s) (base_delta s) then
      DecreasedOrPassive
        (violation_reason (check_violation (net_delta s) (base_delta s)))
    else
      PositionsUnchanged
  else
    AddPositionsPrompt.
Proof.
  unfold results, has_violation, violation_qty, violation_reason.
  now destruct (check_violation _ _) as [[hv q] reason].
Qed.

Section Interactions.

Variable float_of_text : string -> option Q.

(** X9: adding a position whose Delta text is a number appends exactly
    one row to the chosen book, raises that book's aggregate by the
    value of the position, and leaves the other book and the stock name
    as they were. *)
Theorem add_appends_one_row
    (s : SessionState) (b : Book) (type direction : string) (qty : Z)
    (delta : string) (d : Q) :
  float_of_text delta = Some d ->
  book b (handle float_of_text s (Add b type direction qty delta)) =
  book b s ++
  [mkPosition type direction qty delta
     (calculate_position_delta type direction (inject_Z qty) d)] /\
  net_of (book b (handle float_of_text s (Add b type direction qty delta))) =
  net_of (book b s) +
  calculate_position_delta type direction (inject_Z qty) d /\
  (forall b' : Book, b' <> b ->
     book b' (handle float_of_text s (Add b type direction qty delta)) =
     book b' s) /\
  stock_name (handle float_of_text s (Add b type direction qty delta)) =
  stock_name s.
Proof.
  intro E. cbn [handle]. unfold new_row. rewrite E.
  rewrite book_set_book, net_of_snoc. cbn [Position_Delta].
  repeat split.
  - intros b' Hb. destruct b, b'; try reflexivity; contradiction.
  - destruct b; reflexivity.
Qed.

(** X10: removing the last row right after a successful add gives back
    the state before the add. *)
Theorem add_then_remove_last
    (s : SessionState) (b : Book) (type direction : string) (qty : Z)
    (delta : string) (d : Q) :
  float_of_text delta = Some d ->
  handle float_of_text
    (handle float_of_text s (Add b type direction qty delta))
    (RemoveLast b) = s.
Proof.
  intro E. cbn [handle]. unfold new_row. rewrite E.
  rewrite book_set_book, removelast_last, set_book_twice.
  apply set_book_same.
Qed.

(** X11: no interaction ever stores a row whose Delta text is not a
    number: in every reachable state, each row of either book has a
    Delta text that parses, and its stored 'Position Delta' is the
    value computed from that row's own kind, direction, quantity and
    parsed Delta. *)
Theorem stored_rows_are_valid (es : list Event) (p : Position) :
  In p (old_positions (run float_of_text es)) \/
  In p (new_positions (run float_of_text es)) ->
  exists d : Q,
    float_of_text (Delta p) = Some d /\
    Position_Delta p =
    calculate_position_delta (Type_ p) (Direction p)
      (inject_Z (Quantity p)) d.
Proof.
  intro H.
  destruct (run_ok float_of_text es) as [Ho Hn].
  assert (R : row_ok float_of_text p).
  { destruct H as [H | H];
      [exact (proj1 (Forall_forall _ _) Ho p H)
      | exact (proj1 (Forall_forall _ _) Hn p H)]. }
  unfold row_ok, value_position in R.
  destruct (float_of_text (Delta p)) as [d |]; [| discriminate].
  exists d. split; [reflexivity |]. now injection R.
Qed.

(** X12: copying a non-empty old book makes the new book equal to it
    and leaves the old book alone; the detector then reports no
    violation and the results never show one, whatever the price. *)
Theorem copy_gives_no_violation (s : SessionState) (price : Q) :
  old_positions s <> [] ->
  new_positions (handle float_of_text s CopyOldToNew) = old_positions s /\
  old_positions (handle float_of_text s CopyOldToNew) = old_positions s /\
  has_violation
    (check_violation (net_delta (handle float_of_text s CopyOldToNew))
       (base_delta (handle float_of_text s CopyOldToNew))) = false /\
  (forall (reason : string) (q : Q) (pen : Q * Q * Q * Q),
     results (handle float_of_text s CopyOldToNew) price <>
     ViolationDetected reason q pen).
Proof.
  intro H. cbn [handle].
  destruct (old_positions s) as [| r l] eqn:E; [contradiction |].
  rewrite <- E.
  split; [reflexivity |]. split; [reflexivity |].
  assert (V : has_violation
                (check_violation
                   (net_delta (set_book New (old_positions s) s))
                   (base_delta (set_book New (old_positions s) s))) = false)
    by apply check_violation_unchanged.
  split; [exact V |].
  intros reason q pen. rewrite results_unfold, V.
  destruct (_ || _); [| discriminate].
  destruct (_ && _); [discriminate |].
  destruct (Py.ne _ _); discriminate.
Qed.

(** X13: while a book is non-empty, "remove last" drops exactly its
    last row: the aggregate before is the aggregate after plus the
    removed row's 'Position Delta', and the book is one row shorter. *)
Theorem remove_last_lowers_aggregate
    (s : SessionState) (b : Book) (dflt : Position) :
  book b s <> [] ->
  book b s =
  book b (handle float_of_text s (RemoveLast b)) ++ [last (book b s) dflt] /\
  net_of (book b s) =
  net_of (book b (handle float_of_text s (RemoveLast b))) +
  Position_Delta (last (book b s) dflt) /\
  S (length (book b (handle float_of_text s (RemoveLast b)))) =
  length (book b s).
Proof.
  intro H. cbn [handle]. rewrite book_set_book.
  pose proof (app_removelast_last dflt H) as E.
  split; [exact E |]. split.
  - rewrite <- net_of_snoc, <- E. reflexivity.
  - rewrite E at 2. rewrite length_app. cbn. lia.
Qed.

(** X14: the old book, and with it the base aggregate, is changed only
    by the old book's own add, remove and clear buttons and by "clear
    both"; every other interaction leaves it as it was. *)
Theorem base_book_only_changed_by_old_events
    (s : SessionState) (e : Event) :
  touches_old e = false ->
  old_positions (handle float_of_text s e) = old_positions s /\
  base_delta (handle float_of_text s e) = base_delta s.
Proof.
  intro H.
  assert (E : old_positions (handle float_of_text s e) = old_positions s).
  { destruct e as [[|] ty dir q t | [|] | [|] | | |];
      try discriminate H; cbn [handle]; try reflexivity.
    - destruct (new_row _ _ _ _ _); reflexivity.
    - destruct (old_positions s) eqn:E'; cbn; exact E'. }
  split; [exact E |]. unfold base_delta. now rewrite E.
Qed.

End Interactions.

Lemma add_appends_one_row_witness :
  example_float "0.02323" = Some 0.02323 /\
  net_of (book Old (handle example_float initial_state
                      (Add Old "Call Option" "Long" 7200 "0.02323"))) =
  net_of (book Old initial_state) +
  calculate_position_delta "Call Option" "Long" (inject_Z 7200) 0.02323.
Proof.
  split; [reflexivity |].
  exact (proj1 (proj2 (add_appends_one_row example_float initial_state Old
                         "Call Option" "Long" 7200 "0.02323" 0.02323
                         eq_refl))).
Defined.

Lemma add_then_remove_last_witness :
  example_float "0.00562" = Some 0.00562 /\
  handle example_float
    (handle example_float (run example_float example_events)
       (Add New "Put Option" "Short" 3600 "0.00562"))
    (RemoveLast New) = run example_float example_events.
Proof.
  split; [reflexivity |].
  exact (add_then_remove_last example_float (run example_float example_events)
           New "Put Option" "Short" 3600 "0.00562" 0.00562 eq_refl).
Defined.

Lemma stored_rows_are_valid_witness :
  In (mkPosition "Call Option" "Short" 3600 "0.00562"
        (calculate_position_delta "Call Option" "Short" 3600 0.00562))
     (new_positions (run example_float example_events)) /\
  exists d : Q,
    example_float "0.00562" = Some d /\
    calculate_position_delta "Call Option" "Short" 3600 0.00562 =
    calculate_position_delta "Call Option" "Short" (inject_Z 3600) d.
Proof.
  assert (I : In (mkPosition "Call Option" "Short" 3600 "0.00562"
                    (calculate_position_delta "Call Option" "Short"
                       3600 0.00562))
                 (new_positions (run example_float example_events)))
    by (right; left; reflexivity).
  split; [exact I |].
  exact (stored_rows_are_valid example_float example_events _ (or_intror I)).
Defined.

Lemma copy_gives_no_violation_witness :
  old_positions (run example_float example_events) <> [] /\
  new_positions
    (handle example_float (run example_float example_events) CopyOldToNew) =
  old_positions (run example_float example_events) /\
  has_violation
    (check_violation
       (net_delta
          (handle example_float (run example_float example_events)
             CopyOldToNew))
       (base_delta
          (handle example_float (run example_float example_events)
             CopyOldToNew))) = false.
Proof.
  assert (H : old_positions (run example_float example_events) <> [])
    by discriminate.
  destruct (copy_gives_no_violation example_float
              (run example_float example_events) 135.47 H)
    as (N & _ & V & _).
  split; [exact H |]. split; [exact N | exact V].
Defined.

Lemma remove_last_lowers_aggregate_witness :
  book New (run example_float example_events) <> [] /\
  net_of (book New (run example_float example_events)) =
  net_of (book New (handle example_float (run example_float example_events)
                      (RemoveLast New))) +
  calculate_position_delta "Call Option" "Short" 3600 0.00562.
Proof.
  assert (H : book New (run example_float example_events) <> [])
    by discriminate.
  split; [exact H |].
  exact (proj1 (proj2 (remove_last_lowers_aggregate example_float
                         (run example_float example_events) New
                         (mkPosition "" "" 0 "" 0) H))).
Defined.

Lemma base_book_only_changed_by_old_events_witness :
  touches_old CopyOldToNew = false /\
  base_delta
    (handle example_float (run example_float example_events) CopyOldToNew) =
  base_delta (run example_float example_events).
Proof.
  split; [reflexivity |].
  exact (proj2 (base_book_only_changed_by_old_events example_float
                  (run example_float example_events) CopyOldToNew eq_refl)).
Defined.

(** ** The results section *)

Lemma truthy_true_iff {A : Type} (l l' : list A) :
  truthy l || truthy l' = true <-> l <> [] \/ l' <> [].
Proof.
  destruct l, l'; cbn; split; intro H; try reflexivity; try discriminate H;
    try (left; discriminate); try (right; discriminate).
  destruct H as [H | H]; contradiction.
Qed.

Lemma no_violation_result (n b : Q) :
  ~ b == 0 ->
  has_violation (check_violation n b) = false ->
  violation_reason (check_violation n b) =
  "No violation - Delta decreased or remained same"%string.
Proof.
  intros Hb. apply eq_false_iff in Hb.
  unfold check_violation, has_violation, violation_reason. rewrite Hb.
  py_split; cbn; intro H; try discriminate H; reflexivity.
Qed.

(** X15: a violation is shown only for a state with at least one
    row and only when the detector reports one; the reason and the
    quantity shown are the detector's, the quantity is not negative,
    the penalty shown is [calculate_penalty] of that quantity at the
    given price, and its total lies between 5900 and 118000. *)
Theorem violation_report_is_sound
    (s : SessionState) (price : Q) (reason : string) (q : Q)
    (pen : Q * Q * Q * Q) :
  results s price = ViolationDetected reason q pen ->
  (old_positions s <> [] \/ new_positions s <> []) /\
  check_violation (net_delta s) (base_delta s) = (true, q, reason) /\
  ~ q < 0 /\
  pen = calculate_penalty q price /\
  5900 <= total_penalty pen <= 118000.
Proof.
  rewrite results_unfold.
  destruct (truthy _ || truthy _) eqn:T; [| discriminate].
  apply truthy_true_iff in T.
  destruct (violation_qty_facts (net_delta s) (base_delta s)) as [Q1 Q2].
  unfold has_violation, violation_qty, violation_reason in *.
  destruct (check_violation (net_delta s) (base_delta s))
    as [[hv q'] reason'].
  cbn [fst snd] in *. destruct hv.
  - intro H. injection H as <- <- <-.
    split; [exact T |]. split; [reflexivity |].
    assert (P : 0 < q') by now apply Q2.
    split; [lra |].
    split; [reflexivity | apply total_in_range].
  - destruct (_ && _); [discriminate |].
    destruct (Py.ne _ _); discriminate.
Qed.

Lemma violation_report_is_sound_witness :
  results (run example_float example_events) 135.47 =
  ViolationDetected "Net Delta increased in same direction"
    (violation_qty
       (check_violation (net_delta (run example_float example_events))
          (base_delta (run example_float example_events))))
    (calculate_penalty
       (violation_qty
          (check_violation (net_delta (run example_float example_events))
             (base_delta (run example_float example_events))))
       135.47) /\
  5900 <=
  total_penalty
    (calculate_penalty
       (violation_qty
          (check_violation (net_delta (run example_float example_events))
             (base_delta (run example_float example_events))))
       135.47) <= 118000.
Proof.
  assert (R : results (run example_float example_events) 135.47 =
              ViolationDetected "Net Delta increased in same direction"
                (violation_qty
                   (check_violation
                      (net_delta (run example_float example_events))
                      (base_delta (run example_float example_events))))
                (calculate_penalty
                   (violation_qty
                      (check_violation
                         (net_delta (run example_float example_events))
                         (base_delta (run example_float example_events))))
                   135.47))
    by reflexivity.
  split; [exact R |].
  exact (proj2 (proj2 (proj2 (proj2
           (violation_report_is_sound _ _ _ _ _ R))))).
Defined.

(** X16: when the results show the "decreased or passive change" note,
    the reason printed with it is the "No violation" text, the base
    aggregate is non-zero, and the new aggregate differs from the base
    and is not above it. *)
Theorem passive_change_report
    (s : SessionState) (price : Q) (reason : string) :
  results s price = DecreasedOrPassive reason ->
  reason = "No violation - Delta decreased or remained same"%string /\
  ~ base_delta s == 0 /\
  ~ net_delta s == base_delta s /\
  ~ base_delta s < net_delta s.
Proof.
  rewrite results_unfold.
  destruct (truthy _ || truthy _); [| discriminate].
  destruct (has_violation _) eqn:V; [discriminate |].
  pose proof (proj1 (no_violation_cases _ _) V) as C.
  unfold Py.ne. change Qeq_bool with Py.eq.
  destruct (Py.eq (base_delta s) 0) eqn:B;
    destruct (Py.eq (net_delta s) 0) eqn:N; cbn [andb]; try discriminate;
    destruct (Py.eq (net_delta s) (base_delta s)) eqn:D; cbn [negb];
    try discriminate; py_facts; intro H; injection H as <-.
  all: try (exfalso; lra).
  all: split; [now apply no_violation_result |]; repeat split; lra.
Qed.

Lemma passive_change_report_witness :
  results
    (run example_float
       [Add Old "Future" "Long" 10 "0.02323";
        Add New "Future" "Long" 5 "0.02323"]) 135.47 =
  DecreasedOrPassive "No violation - Delta decreased or remained same" /\
  ~ base_delta
      (run example_float
         [Add Old "Future" "Long" 10 "0.02323";
          Add New "Future" "Long" 5 "0.02323"]) <
    net_delta
      (run example_float
         [Add Old "Future" "Long" 10 "0.02323";
          Add New "Future" "Long" 5 "0.02323"]).
Proof.
  assert (R : results
                (run example_float
                   [Add Old "Future" "Long" 10 "0.02323";
                    Add New "Future" "Long" 5 "0.02323"]) 135.47 =
              DecreasedOrPassive
                "No violation - Delta decreased or remained same")
    by reflexivity.
  split; [exact R |].
  exact (proj2 (proj2 (proj2 (passive_change_report _ _ _ R)))).
Defined.

(** X17: the prompt to add positions is shown exactly when both books
    are empty; "No positions to evaluate." exactly when some book has a
    row and both aggregates are zero; "Positions are unchanged."
    exactly when some book has a row and the two aggregates are equal
    and non-zero. *)
Theorem report_classification (s : SessionState) (price : Q) :
  (results s price = AddPositionsPrompt <->
   old_positions s = [] /\ new_positions s = []) /\
  (results s price = NoPositionsToEvaluate <->
   (old_positions s <> [] \/ new_positions s <> []) /\
   base_delta s == 0 /\ net_delta s == 0) /\
  (results s price = PositionsUnchanged <->
   (old_positions s <> [] \/ new_positions s <> []) /\
   net_delta s == base_delta s /\ ~ base_delta s == 0).
Proof.
  rewrite results_unfold.
  destruct (truthy (old_positions s) || truthy (new_positions s)) eqn:T.
  - pose proof (proj1 (truthy_true_iff _ _) T) as NE.
    pose proof (no_violation_cases (net_delta s) (base_delta s)) as C.
    unfold Py.ne. change Qeq_bool with Py.eq.
    split; [| split].
    + destruct (has_violation _); [| destruct (_ && _); [| destruct (negb _)]];
        (split; [discriminate |]); intros [E1 E2]; destruct NE; contradiction.
    + destruct (has_violation _).
      * split; [discriminate |]. intros (_ & B & N).
        assert (F : true = false) by (apply C; lra). discriminate F.
      * destruct (Py.eq (base_delta s) 0) eqn:B;
          destruct (Py.eq (net_delta s) 0) eqn:N; cbn [andb]; py_facts.
        -- split; [intros _ | reflexivity]. auto.
        -- destruct (negb _); split; try discriminate; intros (_ & _ & N');
             contradiction.
        -- destruct (negb _); split; try discriminate; intros (_ & B' & _);
             contradiction.
        -- destruct (negb _); split; try discriminate; intros (_ & B' & _);
             contradiction.
    + destruct (has_violation _).
      * split; [discriminate |]. intros (_ & E & B).
        assert (F : true = false) by (apply C; lra). discriminate F.
      * destruct (Py.eq (base_delta s) 0) eqn:B;
          destruct (Py.eq (net_delta s) 0) eqn:N; cbn [andb]; py_facts;
          try (split; [discriminate |]; intros (_ & E & B'); lra);
          destruct (Py.eq (net_delta s) (base_delta s)) eqn:D; cbn [negb];
          py_facts;
          (split;
           [intro H; try discriminate H; repeat split; (exact NE || lra)
           | intros (_ & E & B'); try reflexivity; lra]).
  - assert (E : old_positions s = [] /\ new_positions s = []).
    { destruct (old_positions s), (new_positions s);
        try discriminate T; auto. }
    split; [tauto |].
    split; (split; [discriminate |]); destruct E as [E1 E2];
      intros ([H | H] & _); contradiction.
Qed.
